(** * Threat-model definition script [Diagrama_y_Arquitectura/tm.py]

    The script is a flat sequence of constructor calls and attribute
    assignments over the objects of the [pytm] library, closed by a guarded
    call to [tm.process()].  It is embedded as a computation in a small
    state-and-error monad: module globals are a dictionary from names to
    object references, the library's registry of instantiated objects is a
    heap indexed by reference, and every executed statement is recorded, in
    order and with its source line, in a trace. *)

From Stdlib Require Import ZArith Bool Lia.
From stdpp Require Import base option list gmap strings.

Local Open Scope string_scope.

(** ** Enumerations imported from the library (tm.py:3-14)

    The script only names members of these enumerations ([DatastoreType.SQL],
    [Classification.SENSITIVE], [Classification.RESTRICTED],
    [TLSVersion.TLSv12]).  Their declarations are the library's, which is not
    part of this repository; they are reproduced as the library has them. *)

Module Classification.

Inductive t := UNKNOWN | PUBLIC | RESTRICTED | SENSITIVE | SECRET | TOP_SECRET.

Definition members : list t :=
  [UNKNOWN; PUBLIC; RESTRICTED; SENSITIVE; SECRET; TOP_SECRET].

(** The integer each member carries; members compare as these values do. *)
Definition value (c : t) : Z :=
  match c with
  | UNKNOWN => 0
  | PUBLIC => 1
  | RESTRICTED => 2
  | SENSITIVE => 3
  | SECRET => 4
  | TOP_SECRET => 5
  end%Z.

Definition lt (a b : t) : Prop := (value a < value b)%Z.

End Classification.

Module DatastoreType.

Inductive t := UNKNOWN | FILE_SYSTEM | SQL | LDAP | AWS_S3.

Definition members : list t := [UNKNOWN; FILE_SYSTEM; SQL; LDAP; AWS_S3].

(** The kind of storage system a member stands for. *)
Inductive kind :=
| Unspecified | FileSystem | Relational | Directory | ObjectBucket | Document.

Definition kind_of (d : t) : kind :=
  match d with
  | UNKNOWN => Unspecified
  | FILE_SYSTEM => FileSystem
  | SQL => Relational
  | LDAP => Directory
  | AWS_S3 => ObjectBucket
  end.

End DatastoreType.

Module TLSVersion.

Inductive t := NONE | SSLv1 | SSLv2 | SSLv3 | TLSv10 | TLSv11 | TLSv12 | TLSv13.

End TLSVersion.

(** ** Objects, values and the interpreter state *)

(** A reference is the position of an object in the registry. *)
Abbreviation Ref := nat.

Inductive Class := TM_ | Boundary_ | Actor_ | Server_ | Datastore_ | Data_ | Dataflow_.

#[warnings="-register-all"] Inductive Value :=
| VStr (s : string)
| VBool (b : bool)
| VInt (z : Z)
| VClassification (c : Classification.t)
| VDatastoreType (d : DatastoreType.t)
| VTLSVersion (v : TLSVersion.t)
| VRef (r : Ref)
| VList (vs : list Value).

Record Obj := mkObj { cls : Class; attrs : gmap string Value }.

(** What the script does, statement by statement.  [line] is the source line
    of the statement. *)
Inductive Event :=
| EvNew (line : nat) (r : Ref) (c : Class) (args : list (string * Value))
| EvSet (line : nat) (r : Ref) (attr : string) (v : Value)
| EvCall (line : nat) (r : Ref) (method : string).

(** ** Decidable equality *)

#[export] Instance Classification_eq_dec : EqDecision Classification.t.
Proof. solve_decision. Defined.
#[export] Instance DatastoreType_eq_dec : EqDecision DatastoreType.t.
Proof. solve_decision. Defined.
#[export] Instance DatastoreType_kind_eq_dec : EqDecision DatastoreType.kind.
Proof. solve_decision. Defined.
#[export] Instance TLSVersion_eq_dec : EqDecision TLSVersion.t.
Proof. solve_decision. Defined.
#[export] Instance Class_eq_dec : EqDecision Class.
Proof. solve_decision. Defined.

#[export] Instance Value_eq_dec : EqDecision Value.
Proof.
  refine (fix go (a b : Value) {struct a} : Decision (a = b) :=
    match a, b with
    | VStr s, VStr s' => cast_if (decide (s = s'))
    | VBool x, VBool x' => cast_if (decide (x = x'))
    | VInt z, VInt z' => cast_if (decide (z = z'))
    | VClassification c, VClassification c' => cast_if (decide (c = c'))
    | VDatastoreType d, VDatastoreType d' => cast_if (decide (d = d'))
    | VTLSVersion v, VTLSVersion v' => cast_if (decide (v = v'))
    | VRef r, VRef r' => cast_if (decide (r = r'))
    | VList l, VList l' => cast_if (@list_eq_dec _ go l l')
    | _, _ => right _
    end); congruence.
Defined.

#[export] Instance Event_eq_dec : EqDecision Event.
Proof. solve_decision. Defined.

Record State := mkState {
  globals : gmap string Ref;   (* module namespace *)
  heap : list Obj;             (* registry of constructed objects *)
  trace : list Event           (* executed statements, oldest first *)
}.

Definition initial : State := mkState ∅ [] [].

Inductive PyError :=
| NameError (x : string)
| ReferenceError (r : Ref).

Inductive Result (A : Type) :=
| Ok (a : A) (s : State)
| Raise (e : PyError).
Arguments Ok {A} a s.
Arguments Raise {A} e.

Definition M (A : Type) : Type := State → Result A.

#[export] Instance M_ret : MRet M := λ A a s, Ok a s.
#[export] Instance M_bind : MBind M := λ A B f m s,
  match m s with
  | Ok a s' => f a s'
  | Raise e => Raise e
  end.

Definition raise {A} (e : PyError) : M A := λ _, Raise e.
Definition get : M State := λ s, Ok s s.
Definition put (s : State) : M unit := λ _, Ok tt s.
Definition log (ev : Event) : M unit := λ s,
  Ok tt (mkState (globals s) (heap s) (trace s ++ [ev])).

(** ** Expressions *)

Definition Expr := M Value.

Definition str (s : string) : Expr := mret (VStr s).
Definition bool_ (b : bool) : Expr := mret (VBool b).
Definition int (z : Z) : Expr := mret (VInt z).
Definition classification (c : Classification.t) : Expr := mret (VClassification c).
Definition datastore_type (d : DatastoreType.t) : Expr := mret (VDatastoreType d).
Definition tls_version (v : TLSVersion.t) : Expr := mret (VTLSVersion v).

(** A global name; unbound names raise [NameError]. *)
Definition lookup_name (x : string) : M Ref :=
  s ← get;
  match globals s !! x with
  | Some r => mret r
  | None => raise (NameError x)
  end.

Definition var (x : string) : Expr := r ← lookup_name x; mret (VRef r).

Fixpoint eval_all (es : list Expr) : M (list Value) :=
  match es with
  | [] => mret []
  | e :: es' => v ← e; vs ← eval_all es'; mret (v :: vs)
  end.

(** A list display [[e1, ..., en]], elements evaluated left to right. *)
Definition list_ (es : list Expr) : Expr := vs ← eval_all es; mret (VList vs).

Fixpoint eval_args (args : list (string * Expr)) : M (list (string * Value)) :=
  match args with
  | [] => mret []
  | (k, e) :: rest => v ← e; vs ← eval_args rest; mret ((k, v) :: vs)
  end.

(** ** Statements *)

(** A constructor call: the class and its arguments, named by the parameter
    each one initialises. *)
Definition Ctor : Type := Class * list (string * Expr).

Definition TM (name : Expr) : Ctor := (TM_, [("name", name)]).
Definition Boundary (name : Expr) : Ctor := (Boundary_, [("name", name)]).
Definition Actor (name : Expr) : Ctor := (Actor_, [("name", name)]).
Definition Server (name : Expr) : Ctor := (Server_, [("name", name)]).
Definition Datastore (name : Expr) : Ctor := (Datastore_, [("name", name)]).
Definition Data (name : Expr) : Ctor := (Data_, [("name", name)]).
Definition Data_kw (kwargs : list (string * Expr)) : Ctor := (Data_, kwargs).
Definition Dataflow (source sink name : Expr) : Ctor :=
  (Dataflow_, [("source", source); ("sink", sink); ("name", name)]).

(** [x = C(args)]: evaluate the arguments, allocate the object in the
    registry, bind the global [x] to it. *)
Definition assign (line : nat) (x : string) (c : Ctor) : M unit :=
  vs ← eval_args c.2;
  s ← get;
  let r := length (heap s) in
  put (mkState (<[x := r]> (globals s))
               (heap s ++ [mkObj c.1 (list_to_map vs)])
               (trace s)) ;;
  log (EvNew line r c.1 vs).

(** [x.attr = e]: evaluate [e], look [x] up, store the attribute on the
    object [x] refers to.  A dotted [attr] addresses a sub-object of [x]. *)
Definition setattr (line : nat) (x : string) (attr : string) (e : Expr) : M unit :=
  v ← e;
  r ← lookup_name x;
  s ← get;
  match heap s !! r with
  | Some o =>
      put (mkState (globals s)
                   (<[r := mkObj (cls o) (<[attr := v]> (attrs o))]> (heap s))
                   (trace s)) ;;
      log (EvSet line r attr v)
  | None => raise (ReferenceError r)
  end.

(** [x.method()]: a call into the library.  Only the call itself is
    recorded: what the library then does, to the registry or outside, is not
    part of the script and is not modelled. *)
Definition call (line : nat) (x : string) (method : string) : M unit :=
  r ← lookup_name x;
  log (EvCall line r method).

Definition if_main (dunder_name : string) (body : M unit) : M unit :=
  if String.eqb dunder_name "__main__" then body else mret tt.

(** ** The script

    One line of the definition per statement; the number is the line the
    statement starts on. *)

(** tm.py:16-203, the declarations of the model. *)
Definition declarations : M unit :=
  assign 16 "tm" (TM (str "GymCoach App Threat Model")) ;;
  setattr 17 "tm" "description" (str
    ("Web application for users and coaches to manage workouts, classes and progress. " ++
     "Architecture: HTML/JS frontend served by a Node.js/Express backend with MongoDB Atlas.")) ;;
  setattr 21 "tm" "isOrdered" (bool_ true) ;;
  setattr 22 "tm" "mergeResponses" (bool_ true) ;;
  setattr 23 "tm" "assumptions" (list_ [
    str "All external traffic to the application is over HTTPS through a cloud provider (e.g. Render/Heroku/Nginx).";
    str "MongoDB Atlas is configured with authentication and network access control (IP allow-list / VPC peering).";
    str "Passwords are stored hashed and never in plaintext.";
    str "Admins/coaches use the same web interface but have elevated privileges managed by application roles."]) ;;
  (* Boundaries *)
  assign 32 "internet" (Boundary (str "Internet")) ;;
  assign 34 "app_boundary" (Boundary (str "Application Boundary")) ;;
  assign 36 "cloud_db_boundary" (Boundary (str "MongoDB Atlas Boundary")) ;;
  (* Actors *)
  assign 40 "user" (Actor (str "End User")) ;;
  setattr 41 "user" "inBoundary" (var "internet") ;;
  setattr 42 "user" "description"
    (str "Gym app user that registers, logs in and manages personal workouts.") ;;
  assign 44 "coach" (Actor (str "Coach / Admin")) ;;
  setattr 45 "coach" "inBoundary" (var "internet") ;;
  setattr 46 "coach" "description"
    (str "Coach with elevated permissions to manage users, exercises and classes.") ;;
  (* Servers / Components *)
  assign 50 "frontend" (Server (str "Web Frontend (HTML/JS)")) ;;
  setattr 51 "frontend" "inBoundary" (var "internet") ;;
  setattr 52 "frontend" "OS" (str "Browser") ;;
  setattr 53 "frontend" "description" (str "Static HTML/CSS/JS served to the user browser.") ;;
  setattr 54 "frontend" "controls.sanitizesInput" (bool_ false) ;;
  setattr 55 "frontend" "controls.encodesOutput" (bool_ true) ;;
  assign 57 "api_server" (Server (str "Node.js Express API")) ;;
  setattr 58 "api_server" "inBoundary" (var "app_boundary") ;;
  setattr 59 "api_server" "OS" (str "Linux") ;;
  setattr 60 "api_server" "description" (str
    ("Node.js/Express backend defined in Server.js. " ++
     "Handles routes /users, /exercises, /clases and renders views.")) ;;
  setattr 64 "api_server" "controls.isHardened" (bool_ false) ;;
  setattr 65 "api_server" "controls.sanitizesInput" (bool_ true) ;;
  setattr 66 "api_server" "controls.encodesOutput" (bool_ true) ;;
  setattr 67 "api_server" "controls.authorizesSource" (bool_ true) ;;
  setattr 68 "api_server" "sourceFiles" (list_ [
    str "BACK/Controllers/Router.js";
    str "BACK/Controllers/User.js";
    str "BACK/Controllers/Exercises.js";
    str "BACK/Controllers/Clases.js"]) ;;
  (* Datastores *)
  assign 77 "app_db" (Datastore (str "MongoDB Atlas - App Database")) ;;
  setattr 78 "app_db" "inBoundary" (var "cloud_db_boundary") ;;
  setattr 79 "app_db" "OS" (str "MongoDB Atlas") ;;
  setattr 80 "app_db" "type" (datastore_type DatastoreType.SQL) ;;
  setattr 81 "app_db" "inScope" (bool_ true) ;;
  setattr 82 "app_db" "controls.isHardened" (bool_ true) ;;
  setattr 83 "app_db" "maxClassification" (classification Classification.RESTRICTED) ;;
  setattr 84 "app_db" "storesPII" (bool_ true) ;;
  setattr 85 "app_db" "storesSensitiveData" (bool_ true) ;;
  setattr 86 "app_db" "port" (int 27017) ;;
  setattr 87 "app_db" "protocol" (str "TLS over TCP") ;;
  (* Data objects *)
  assign 91 "credentials" (Data (str "User Credentials")) ;;
  setattr 92 "credentials" "description"
    (str "Email and password used to authenticate users and coaches.") ;;
  setattr 93 "credentials" "classification" (classification Classification.SENSITIVE) ;;
  setattr 94 "credentials" "isPII" (bool_ true) ;;
  setattr 95 "credentials" "isStored" (bool_ true) ;;
  setattr 96 "credentials" "isDestEncryptedAtRest" (bool_ true) ;;
  assign 98 "profile_data" (Data (str "User Profile Data")) ;;
  setattr 99 "profile_data" "description"
    (str "User and coach profile data (name, email, role, BMI, etc.).") ;;
  setattr 100 "profile_data" "classification" (classification Classification.RESTRICTED) ;;
  setattr 101 "profile_data" "isPII" (bool_ true) ;;
  setattr 102 "profile_data" "isStored" (bool_ true) ;;
  setattr 103 "profile_data" "isDestEncryptedAtRest" (bool_ true) ;;
  assign 105 "workout_data" (Data (str "Workout and Routine Data")) ;;
  setattr 106 "workout_data" "description"
    (str "Exercises, routines, goals, progress records.") ;;
  setattr 107 "workout_data" "classification" (classification Classification.SENSITIVE) ;;
  setattr 108 "workout_data" "isStored" (bool_ true) ;;
  setattr 109 "workout_data" "isDestEncryptedAtRest" (bool_ true) ;;
  assign 111 "class_schedule" (Data (str "Class Schedule Data")) ;;
  setattr 112 "class_schedule" "description" (str "Classes, schedules, coach assignments.") ;;
  setattr 113 "class_schedule" "classification" (classification Classification.SENSITIVE) ;;
  setattr 114 "class_schedule" "isStored" (bool_ true) ;;
  setattr 115 "class_schedule" "isDestEncryptedAtRest" (bool_ true) ;;
  assign 117 "session_token" (Data_kw [
    ("name", str "Session / Auth Token");
    ("description", str "Session cookie or JWT used to maintain authenticated sessions.");
    ("classification", classification Classification.SENSITIVE)]) ;;
  (* Dataflows: users <-> frontend *)
  assign 125 "user_to_frontend"
    (Dataflow (var "user") (var "frontend") (str "HTTP(S) Requests from User")) ;;
  setattr 126 "user_to_frontend" "protocol" (str "HTTPS") ;;
  setattr 127 "user_to_frontend" "dstPort" (int 443) ;;
  assign 129 "frontend_to_user"
    (Dataflow (var "frontend") (var "user") (str "HTML/JS/CSS Responses to User")) ;;
  setattr 130 "frontend_to_user" "protocol" (str "HTTPS") ;;
  setattr 131 "frontend_to_user" "dstPort" (int 443) ;;
  assign 133 "coach_to_frontend"
    (Dataflow (var "coach") (var "frontend") (str "HTTP(S) Requests from Coach/Admin")) ;;
  setattr 134 "coach_to_frontend" "protocol" (str "HTTPS") ;;
  setattr 135 "coach_to_frontend" "dstPort" (int 443) ;;
  assign 137 "frontend_to_coach"
    (Dataflow (var "frontend") (var "coach") (str "HTML/JS/CSS Responses to Coach/Admin")) ;;
  setattr 138 "frontend_to_coach" "protocol" (str "HTTPS") ;;
  setattr 139 "frontend_to_coach" "dstPort" (int 443) ;;
  (* Dataflows: frontend <-> API server *)
  assign 143 "frontend_to_api"
    (Dataflow (var "frontend") (var "api_server") (str "API Calls (login, register, CRUD)")) ;;
  setattr 144 "frontend_to_api" "protocol" (str "HTTPS") ;;
  setattr 145 "frontend_to_api" "dstPort" (int 443) ;;
  setattr 146 "frontend_to_api" "tlsVersion" (tls_version TLSVersion.TLSv12) ;;
  setattr 147 "frontend_to_api" "data" (list_ [
    var "credentials"; var "profile_data"; var "workout_data";
    var "class_schedule"; var "session_token"]) ;;
  setattr 148 "frontend_to_api" "usesSessionTokens" (bool_ true) ;;
  assign 150 "api_to_frontend"
    (Dataflow (var "api_server") (var "frontend") (str "API Responses (JSON / HTML)")) ;;
  setattr 151 "api_to_frontend" "protocol" (str "HTTPS") ;;
  setattr 152 "api_to_frontend" "dstPort" (int 443) ;;
  setattr 153 "api_to_frontend" "tlsVersion" (tls_version TLSVersion.TLSv12) ;;
  setattr 154 "api_to_frontend" "data" (list_ [
    var "profile_data"; var "workout_data"; var "class_schedule"; var "session_token"]) ;;
  (* Dataflows: API server <-> MongoDB Atlas *)
  assign 158 "api_to_db_auth"
    (Dataflow (var "api_server") (var "app_db") (str "Store / Read Credentials")) ;;
  setattr 159 "api_to_db_auth" "protocol" (str "TLS") ;;
  setattr 160 "api_to_db_auth" "dstPort" (int 27017) ;;
  setattr 161 "api_to_db_auth" "data" (var "credentials") ;;
  assign 163 "db_to_api_auth"
    (Dataflow (var "app_db") (var "api_server") (str "Return Credentials / Auth Data")) ;;
  setattr 164 "db_to_api_auth" "protocol" (str "TLS") ;;
  setattr 165 "db_to_api_auth" "dstPort" (int 27017) ;;
  setattr 166 "db_to_api_auth" "data" (var "credentials") ;;
  assign 168 "api_to_db_profile"
    (Dataflow (var "api_server") (var "app_db") (str "Store / Read User Profiles")) ;;
  setattr 169 "api_to_db_profile" "protocol" (str "TLS") ;;
  setattr 170 "api_to_db_profile" "dstPort" (int 27017) ;;
  setattr 171 "api_to_db_profile" "data" (var "profile_data") ;;
  assign 173 "db_to_api_profile"
    (Dataflow (var "app_db") (var "api_server") (str "Return User Profiles")) ;;
  setattr 174 "db_to_api_profile" "protocol" (str "TLS") ;;
  setattr 175 "db_to_api_profile" "dstPort" (int 27017) ;;
  setattr 176 "db_to_api_profile" "data" (var "profile_data") ;;
  assign 178 "api_to_db_workouts"
    (Dataflow (var "api_server") (var "app_db") (str "CRUD Workouts and Routines")) ;;
  setattr 179 "api_to_db_workouts" "protocol" (str "TLS") ;;
  setattr 180 "api_to_db_workouts" "dstPort" (int 27017) ;;
  setattr 181 "api_to_db_workouts" "data" (var "workout_data") ;;
  assign 183 "db_to_api_workouts"
    (Dataflow (var "app_db") (var "api_server") (str "Return Workouts and Routines")) ;;
  setattr 184 "db_to_api_workouts" "protocol" (str "TLS") ;;
  setattr 185 "db_to_api_workouts" "dstPort" (int 27017) ;;
  setattr 186 "db_to_api_workouts" "data" (var "workout_data") ;;
  assign 188 "api_to_db_classes"
    (Dataflow (var "api_server") (var "app_db") (str "CRUD Classes and Schedules")) ;;
  setattr 189 "api_to_db_classes" "protocol" (str "TLS") ;;
  setattr 190 "api_to_db_classes" "dstPort" (int 27017) ;;
  setattr 191 "api_to_db_classes" "data" (var "class_schedule") ;;
  assign 193 "db_to_api_classes"
    (Dataflow (var "app_db") (var "api_server") (str "Return Classes and Schedules")) ;;
  setattr 194 "db_to_api_classes" "protocol" (str "TLS") ;;
  setattr 195 "db_to_api_classes" "dstPort" (int 27017) ;;
  setattr 196 "db_to_api_classes" "data" (var "class_schedule") ;;
  (* session token related to the main flows *)
  setattr 199 "session_token" "traverses" (list_ [
    var "frontend_to_api"; var "api_to_frontend"]) ;;
  setattr 203 "session_token" "processedBy" (list_ [var "api_server"]).

(** tm.py:16-206, the module body: the declarations, then the guarded call
    of lines 205-206.  [dunder_name] is the value of [__name__]. *)
Definition tm_py (dunder_name : string) : M unit :=
  declarations ;;
  if_main dunder_name (call 206 "tm" "process").

(** One run of the script in a fresh interpreter. *)
Definition run (dunder_name : string) : Result unit := tm_py dunder_name initial.

(** The state the script's own statements leave at the end of a run: the
    declared graph, and the trace of what the script did. *)
Definition final (dunder_name : string) : State :=
  match run dunder_name with
  | Ok _ s => s
  | Raise _ => initial
  end.

(** The state once the declarations are done (end of line 203). *)
Definition built : State :=
  match declarations initial with
  | Ok _ s => s
  | Raise _ => initial
  end.

Definition is_ok {A} (r : Result A) : bool :=
  match r with Ok _ _ => true | Raise _ => false end.

(** The state the script's own statements leave in a run as the main
    program: the graph as declared by the end of line 203, and a trace that
    ends with the call of line 206.  What [process()] itself does to the
    registry is the library's and is not modelled. *)
Definition processed : State :=
  mkState (globals built) (heap built) (trace built ++ [EvCall 206 0 "process"]).

(** ** Reading the entity graph *)

(** The entity graph: the module namespace and the registry it points into. *)
Definition graph (s : State) : gmap string Ref * list Obj := (globals s, heap s).

Definition class_of (s : State) (r : Ref) : option Class := cls <$> heap s !! r.

Definition attr (s : State) (r : Ref) (a : string) : option Value :=
  heap s !! r ≫= λ o, attrs o !! a.

(** The objects a value refers to: a single reference, or the references of
    a list. *)
Fixpoint refs_of (v : Value) : list Ref :=
  match v with
  | VRef r => [r]
  | VList vs => flat_map refs_of vs
  | _ => []
  end.

(** ** Reading the trace *)

Definition is_new (ev : Event) : bool :=
  match ev with EvNew _ _ _ _ => true | _ => false end.
Definition is_set (ev : Event) : bool :=
  match ev with EvSet _ _ _ _ => true | _ => false end.

(** Constructing an object and assigning an attribute only touch the
    registry; a call into the library is where output can arise. *)
Definition observable (ev : Event) : bool :=
  match ev with EvCall _ _ _ => true | _ => false end.

Definition target (ev : Event) : Ref :=
  match ev with
  | EvNew _ r _ _ | EvSet _ r _ _ | EvCall _ r _ => r
  end.

Definition line_of (ev : Event) : nat :=
  match ev with
  | EvNew l _ _ _ | EvSet l _ _ _ | EvCall l _ _ => l
  end.

(** The attribute values a statement assigns: the constructor arguments of a
    construction, the right-hand side of an assignment. *)
Definition assigned (ev : Event) : list (string * Value) :=
  match ev with
  | EvNew _ _ _ args => args
  | EvSet _ _ a v => [(a, v)]
  | EvCall _ _ _ => []
  end.

(** Position and class of the statement that constructs [r], counting from
    position [i] for the head of [t]. *)
Fixpoint constructed_from (i : nat) (t : list Event) (r : Ref) : option (nat * Class) :=
  match t with
  | [] => None
  | EvNew _ r' c _ :: t' =>
      if decide (r' = r) then Some (i, c) else constructed_from (S i) t' r
  | _ :: t' => constructed_from (S i) t' r
  end.

Definition constructed_at (t : list Event) (r : Ref) : option (nat * Class) :=
  constructed_from 0 t r.

(** [r] is constructed, with class [c], by a statement before position [i]. *)
Definition declared_before (t : list Event) (i : nat) (r : Ref) (c : Class) : Prop :=
  ∃ j line args, j < i ∧ t !! j = Some (EvNew line r c args).

(** Walking back from an assignment to [r] over the statements that precede
    it, most recent first: only assignments to [r] may be crossed before the
    construction of [r] is reached. *)
Fixpoint reaches_construction (r : Ref) (before : list Event) : bool :=
  match before with
  | [] => false
  | EvNew _ r' _ _ :: _ => bool_decide (r' = r)
  | EvSet _ r' _ _ :: rest => bool_decide (r' = r) && reaches_construction r rest
  | EvCall _ _ _ :: _ => false
  end.

(** The statement at position [i] is an attribute assignment that
    immediately follows the construction of its target. *)
Definition follows_construction (t : list Event) (i : nat) : bool :=
  match t !! i with
  | Some (EvSet _ r _ _) => reaches_construction r (rev (take i t))
  | _ => false
  end.

Definition endpoint_class (c : Class) : bool :=
  match c with
  | Actor_ | Server_ | Datastore_ => true
  | _ => false
  end.

Definition classification_attr (a : string) : bool :=
  bool_decide (a = "classification") || bool_decide (a = "maxClassification").

Definition classification_member (v : Value) : bool :=
  match v with
  | VClassification c => bool_decide (c ∈ Classification.members)
  | _ => false
  end.

(** The value a constructor call gives to parameter [k]. *)
Definition kwarg (args : list (string * Value)) (k : string) : option Value :=
  (list_to_map args : gmap string Value) !! k.

(** [r] is constructed by a statement before position [i]. *)
Definition constructed_before (t : list Event) (i : nat) (r : Ref) : Prop :=
  match constructed_at t r with
  | Some (j, _) => j < i
  | None => False
  end.

Definition constructs (r : Ref) (ev : Event) : bool :=
  match ev with
  | EvNew _ r' _ _ => bool_decide (r' = r)
  | _ => false
  end.

(** The positions of the statements that construct [r]. *)
Definition constructions (t : list Event) (r : Ref) : list nat :=
  fst <$> filter (λ x, constructs r x.2) (imap pair t).

(** [v] is a reference to an actor, server or datastore constructed before
    position [i]. *)
Definition endpoint_declared (t : list Event) (i : nat) (v : option Value) : bool :=
  match v with
  | Some (VRef r) =>
      match constructed_at t r with
      | Some (j, c) => bool_decide (j < i) && endpoint_class c
      | None => false
      end
  | _ => false
  end.

Definition dataflow_endpoints_ok (t : list Event) (i : nat) (ev : Event) : bool :=
  match ev with
  | EvNew _ _ Dataflow_ args =>
      endpoint_declared t i (kwarg args "source") &&
      endpoint_declared t i (kwarg args "sink")
  | _ => true
  end.

(** [d] is a data object constructed before the dataflow [f] is. *)
Definition data_before_flow (t : list Event) (f d : Ref) : bool :=
  match constructed_at t f, constructed_at t d with
  | Some (i, Dataflow_), Some (j, Data_) => bool_decide (j < i)
  | _, _ => false
  end.

Definition data_annotation_ok (t : list Event) (ev : Event) : bool :=
  match ev with
  | EvSet _ f a v =>
      if bool_decide (a = "data") then forallb (data_before_flow t f) (refs_of v)
      else true
  | _ => true
  end.

Definition classification_ok (ev : Event) : bool :=
  forallb (λ kv, implb (classification_attr kv.1) (classification_member kv.2))
          (assigned ev).

(** The classes of the objects the declarations construct, in order: the
    model, three boundaries, two actors, two servers, one datastore, five
    data objects and fourteen dataflows. *)
Definition declared_classes : list Class :=
  ([TM_] ++ replicate 3 Boundary_ ++ replicate 2 Actor_ ++ replicate 2 Server_ ++
   [Datastore_] ++ replicate 5 Data_ ++ replicate 14 Dataflow_)%list.

(** What an observable statement of a run can only be: the call of line 206
    on the model, as the last statement, with nothing observable before it. *)
Definition only_process_at (s : State) (i : nat) (ev : Event) : Prop :=
  observable ev = true →
  globals s !! "tm" = Some (target ev) ∧
  ev = EvCall 206 (target ev) "process" ∧
  S i = length (trace s) ∧
  Forall (λ e, observable e = false) (take i (trace s)).

Definition constructs_dataflow (ev : Event) : bool :=
  match ev with
  | EvNew _ _ Dataflow_ _ => true
  | _ => false
  end.

(** The positions of the statements that construct a dataflow. *)
Definition dataflow_constructions (t : list Event) : list nat :=
  fst <$> filter (λ x, constructs_dataflow x.2) (imap pair t).

(** The life of an entity, told per statement: a construction is the only
    one of its object, which is still there, with its class, when the run
    ends; an assignment targets an object constructed before it, and either
    immediately follows that construction or is one of the two late
    assignments to [session_token] (lines 199 and 203), which stand after
    the construction of every dataflow; the call into the library is the last
    statement. *)
Definition lifecycle_at (s : State) (i : nat) (ev : Event) : Prop :=
  match ev with
  | EvNew _ r c _ =>
      constructions (trace s) r = [i] ∧ class_of s r = Some c
  | EvSet line r a _ =>
      constructed_before (trace s) i r ∧
      (follows_construction (trace s) i = true ∨
       globals s !! "session_token" = Some r ∧
       (line = 199 ∧ a = "traverses" ∨ line = 203 ∧ a = "processedBy") ∧
       Forall (λ j, j < i) (dataflow_constructions (trace s)))
  | EvCall _ _ _ => S i = length (trace s)
  end.

#[export] Instance constructed_before_dec t i r : Decision (constructed_before t i r).
Proof.
  unfold constructed_before. destruct (constructed_at t r) as [[j c] |]; apply _.
Defined.

#[export] Instance lifecycle_at_dec s i ev : Decision (lifecycle_at s i ev).
Proof. destruct ev; simpl; apply _. Defined.

#[export] Instance only_process_at_dec s i ev : Decision (only_process_at s i ev).
Proof. unfold only_process_at. apply _. Defined.

(** ** Reading the declared graph as a whole *)

(** The class of the object a value refers to. *)
Definition ref_class (s : State) (v : option Value) : option Class :=
  match v with
  | Some (VRef r) => class_of s r
  | _ => None
  end.

(** The source or the destination of dataflow [f] is a datastore. *)
Definition touches_datastore (s : State) (f : Ref) : bool :=
  bool_decide (ref_class s (attr s f "source") = Some Datastore_) ||
  bool_decide (ref_class s (attr s f "sink") = Some Datastore_).

(** The data objects a dataflow carries: the references of its [data]
    attribute, none when it has no such attribute. *)
Definition carried (s : State) (f : Ref) : list Ref :=
  from_option refs_of [] (attr s f "data").

(** The class of object the references held by attribute [a] have in this
    script; the other attributes hold no reference. *)
Definition reference_kind (a : string) (c : Class) : bool :=
  if bool_decide (a = "inBoundary") then bool_decide (c = Boundary_)
  else if bool_decide (a = "source") || bool_decide (a = "sink") then endpoint_class c
  else if bool_decide (a = "data") then bool_decide (c = Data_)
  else if bool_decide (a = "traverses") then bool_decide (c = Dataflow_)
  else if bool_decide (a = "processedBy") then bool_decide (c = Server_)
  else false.

Definition reference_ok (t : list Event) (i : nat) (a : string) (r : Ref) : bool :=
  match constructed_at t r with
  | Some (j, c) => bool_decide (j < i) && reference_kind a c
  | None => false
  end.

Definition references_ok (t : list Event) (i : nat) (ev : Event) : bool :=
  forallb (λ kv, forallb (reference_ok t i kv.1) (refs_of kv.2)) (assigned ev).

(** The statement [ev] gives a value to attribute [a] of object [r]. *)
Definition assigns (r : Ref) (a : string) (ev : Event) : bool :=
  bool_decide (target ev = r) && bool_decide (a ∈ (assigned ev).*1).

(** The positions of the statements that give a value to attribute [a] of
    object [r]. *)
Definition assignment_positions (t : list Event) (r : Ref) (a : string) : list nat :=
  fst <$> filter (λ x, assigns r a x.2) (imap pair t).

(** Whatever the statement [ev], at position [i], assigns is assigned by
    no other statement. *)
Definition assigned_once (t : list Event) (i : nat) (ev : Event) : bool :=
  forallb (λ kv, bool_decide (assignment_positions t (target ev) kv.1 = [i]))
          (assigned ev).

(** * Properties *)

(** The script is only ever evaluated as a whole, by [vm_compute]; the other
    tactics see it as a constant. *)
#[global] Opaque declarations.

Local Open Scope nat_scope.

(** ** The monad and the shape of a run *)

Lemma bind_Ok {A B} (m : M A) (f : A → M B) (s s' : State) (a : A) :
  m s = Ok a s' → (m ≫= f) s = f a s'.
Proof. intros H. unfold mbind, M_bind. by rewrite H. Qed.

(** The declarations run to completion: no name is used before it is bound. *)
Lemma declarations_ok : declarations initial = Ok tt built.
Proof.
  assert (H : is_ok (declarations initial) = true) by (vm_compute; reflexivity).
  unfold built. destruct (declarations initial) as [[] s | e]; [done | discriminate].
Qed.

(** A name used before the statement that binds it raises [NameError]: line
    41 on its own, without the boundary of line 32, does not run. *)
Example use_before_declaration :
  (assign 40 "user" (Actor (str "End User")) ;;
   setattr 41 "user" "inBoundary" (var "internet")) initial
  = Raise (NameError "internet").
Proof. vm_compute. reflexivity. Qed.

Lemma built_tm : globals built !! "tm" = Some 0.
Proof. vm_compute. reflexivity. Qed.

Lemma run_main : run "__main__" = Ok tt processed.
Proof.
  unfold run, tm_py. rewrite (bind_Ok _ _ _ _ _ declarations_ok).
  unfold if_main, call. rewrite String.eqb_refl.
  assert (Hl : lookup_name "tm" built = Ok 0 built).
  { unfold lookup_name. rewrite (bind_Ok get _ built built built eq_refl).
    by rewrite built_tm. }
  by rewrite (bind_Ok _ _ _ _ _ Hl).
Qed.

Lemma run_import (n : string) : n ≠ "__main__" → run n = Ok tt built.
Proof.
  intros Hn. unfold run, tm_py. rewrite (bind_Ok _ _ _ _ _ declarations_ok).
  unfold if_main. by destruct (String.eqb_spec n "__main__").
Qed.

Lemma final_cases (n : string) :
  n = "__main__" ∧ final n = processed ∨ n ≠ "__main__" ∧ final n = built.
Proof.
  unfold final. destruct (decide (n = "__main__")) as [-> | Hn].
  - left. by rewrite run_main.
  - right. by rewrite (run_import n Hn).
Qed.

Lemma graph_final (n : string) : graph (final n) = graph built.
Proof. by destruct (final_cases n) as [[_ ->] | [_ ->]]. Qed.

Lemma heap_final (n : string) : heap (final n) = heap built.
Proof. by destruct (final_cases n) as [[_ ->] | [_ ->]]. Qed.

Lemma globals_final (n : string) : globals (final n) = globals built.
Proof. by destruct (final_cases n) as [[_ ->] | [_ ->]]. Qed.

Lemma class_of_final (n : string) (r : Ref) : class_of (final n) r = class_of built r.
Proof. unfold class_of. by rewrite heap_final. Qed.

Lemma attr_final (n : string) (r : Ref) (a : string) : attr (final n) r a = attr built r a.
Proof. unfold attr. by rewrite heap_final. Qed.

Lemma run_ok (n : string) : run n = Ok tt (final n).
Proof.
  destruct (final_cases n) as [[-> ->] | [Hn ->]];
    [apply run_main | by apply run_import].
Qed.

Lemma trace_processed :
  trace processed = (trace built ++ [EvCall 206 0 "process"])%list.
Proof. reflexivity. Qed.

#[global] Opaque built final.

(** ** Checking a property on every object and on every statement *)

Lemma forall_refs (s : State) (P : Ref → Prop) `{!∀ r, Decision (P r)} :
  bool_decide (Forall P (seq 0 (length (heap s)))) = true →
  ∀ r, is_Some (heap s !! r) → P r.
Proof.
  intros Hb r Hr. apply bool_decide_eq_true_1 in Hb.
  rewrite Forall_seq in Hb. apply Hb. apply lookup_lt_is_Some in Hr. lia.
Qed.

Lemma forall_refs2 (s : State) (P : Ref → Ref → Prop) `{!∀ r r', Decision (P r r')} :
  bool_decide (Forall (λ r, Forall (P r) (seq 0 (length (heap s))))
                      (seq 0 (length (heap s)))) = true →
  ∀ r r', is_Some (heap s !! r) → is_Some (heap s !! r') → P r r'.
Proof.
  intros Hb r r' Hr Hr'. apply bool_decide_eq_true_1 in Hb.
  rewrite Forall_seq in Hb.
  assert (Hin : Forall (P r) (seq 0 (length (heap s)))).
  { apply Hb. apply lookup_lt_is_Some in Hr. lia. }
  rewrite Forall_seq in Hin. apply Hin. apply lookup_lt_is_Some in Hr'. lia.
Qed.

Lemma class_of_is_Some (s : State) (r : Ref) (c : Class) :
  class_of s r = Some c → is_Some (heap s !! r).
Proof. unfold class_of. destruct (heap s !! r); [eauto | discriminate]. Qed.

Lemma forall_events (t : list Event) (P : nat → Event → Prop)
    `{!∀ i ev, Decision (P i ev)} :
  bool_decide (Forall (λ x, P x.1 x.2) (imap pair t)) = true →
  ∀ i ev, t !! i = Some ev → P i ev.
Proof.
  intros Hb i ev Hi. apply bool_decide_eq_true_1 in Hb.
  rewrite Forall_forall in Hb.
  apply (Hb (i, ev)). by apply (elem_of_lookup_imap_2 pair).
Qed.

(** ** The datastore *)

(** C2, as stated, fails: the one datastore of the model is given the store
    type [SQL], which stands for a relational store, not a document store. *)
Lemma store_type_not_document :
  class_of (final "__main__") 8 = Some Datastore_ ∧
  attr (final "__main__") 8 "name" = Some (VStr "MongoDB Atlas - App Database") ∧
  attr (final "__main__") 8 "type" = Some (VDatastoreType DatastoreType.SQL) ∧
  DatastoreType.kind_of DatastoreType.SQL ≠ DatastoreType.Document.
Proof.
  split; [| split; [| split]]; [vm_compute; reflexivity .. | discriminate].
Qed.

(** C2, amended. The model has a single datastore, the one bound to [app_db]
    and named "MongoDB Atlas - App Database"; the store type assigned to it is
    [DatastoreType.SQL], the relational member of the enumeration, and the
    enumeration has no member that stands for a document store. *)
Theorem store_type_is_sql (n : string) (db : Ref) :
  class_of (final n) db = Some Datastore_ →
  globals (final n) !! "app_db" = Some db ∧
  attr (final n) db "name" = Some (VStr "MongoDB Atlas - App Database") ∧
  attr (final n) db "type" = Some (VDatastoreType DatastoreType.SQL) ∧
  DatastoreType.kind_of DatastoreType.SQL = DatastoreType.Relational ∧
  ∀ d, DatastoreType.kind_of d ≠ DatastoreType.Document.
Proof.
  rewrite globals_final, class_of_final, !attr_final. intros Hdb.
  pose proof (class_of_is_Some _ _ _ Hdb) as Rdb. revert db Rdb Hdb.
  assert (Hkind : ∀ d, DatastoreType.kind_of d ≠ DatastoreType.Document)
    by (by intros []).
  cut (∀ db, is_Some (heap built !! db) → class_of built db = Some Datastore_ →
    globals built !! "app_db" = Some db ∧
    attr built db "name" = Some (VStr "MongoDB Atlas - App Database") ∧
    attr built db "type" = Some (VDatastoreType DatastoreType.SQL)).
  { intros H db Rdb Hdb. destruct (H db Rdb Hdb) as (? & ? & ?). by repeat split. }
  apply (forall_refs built (λ db, class_of built db = Some Datastore_ → _)).
  vm_compute. reflexivity.
Qed.

Lemma store_type_is_sql_witness :
  class_of (final "__main__") 8 = Some Datastore_ ∧
  attr (final "__main__") 8 "type" = Some (VDatastoreType DatastoreType.SQL).
Proof.
  assert (H : class_of (final "__main__") 8 = Some Datastore_)
    by (vm_compute; reflexivity).
  split; [exact H |]. exact (proj1 (proj2 (proj2 (store_type_is_sql "__main__" 8 H)))).
Defined.

(** C3. Every dataflow whose source or destination is the datastore has
    destination port 27017, which is also the port assigned to the datastore
    itself. *)
Theorem datastore_port_consistent (n : string) (db f : Ref) :
  class_of (final n) db = Some Datastore_ →
  class_of (final n) f = Some Dataflow_ →
  attr (final n) f "source" = Some (VRef db) ∨ attr (final n) f "sink" = Some (VRef db) →
  attr (final n) f "dstPort" = Some (VInt 27017) ∧
  attr (final n) db "port" = Some (VInt 27017).
Proof.
  rewrite !class_of_final, !attr_final. intros Hdb Hf.
  pose proof (class_of_is_Some _ _ _ Hdb) as Rdb.
  pose proof (class_of_is_Some _ _ _ Hf) as Rf.
  revert Hdb Hf.
  apply (forall_refs2 built (λ db f,
    class_of built db = Some Datastore_ →
    class_of built f = Some Dataflow_ →
    attr built f "source" = Some (VRef db) ∨ attr built f "sink" = Some (VRef db) →
    attr built f "dstPort" = Some (VInt 27017) ∧
    attr built db "port" = Some (VInt 27017))); [| done | done].
  vm_compute. reflexivity.
Qed.

Lemma datastore_port_consistent_witness :
  (class_of (final "__main__") 8 = Some Datastore_ ∧
   class_of (final "__main__") 21 = Some Dataflow_ ∧
   attr (final "__main__") 21 "source" = Some (VRef 8)) ∧
  attr (final "__main__") 21 "dstPort" = Some (VInt 27017) ∧
  attr (final "__main__") 8 "port" = Some (VInt 27017).
Proof.
  assert (H1 : class_of (final "__main__") 8 = Some Datastore_)
    by (vm_compute; reflexivity).
  assert (H2 : class_of (final "__main__") 21 = Some Dataflow_)
    by (vm_compute; reflexivity).
  assert (H3 : attr (final "__main__") 21 "source" = Some (VRef 8))
    by (vm_compute; reflexivity).
  split; [by split; [| split] |].
  exact (datastore_port_consistent "__main__" 8 21 H1 H2 (or_introl H3)).
Defined.

(** ** Stored data *)

(** C10. Every data object marked as stored is also marked as encrypted at
    rest at its destination. *)
Theorem stored_data_encrypted_at_rest (n : string) (d : Ref) :
  class_of (final n) d = Some Data_ →
  attr (final n) d "isStored" = Some (VBool true) →
  attr (final n) d "isDestEncryptedAtRest" = Some (VBool true).
Proof.
  rewrite class_of_final, !attr_final. intros Hd.
  pose proof (class_of_is_Some _ _ _ Hd) as Rd. revert d Rd Hd.
  apply (forall_refs built (λ d, class_of built d = Some Data_ →
    attr built d "isStored" = Some (VBool true) →
    attr built d "isDestEncryptedAtRest" = Some (VBool true))).
  vm_compute. reflexivity.
Qed.

Lemma stored_data_encrypted_at_rest_witness :
  (class_of (final "__main__") 9 = Some Data_ ∧
   attr (final "__main__") 9 "isStored" = Some (VBool true)) ∧
  attr (final "__main__") 9 "isDestEncryptedAtRest" = Some (VBool true).
Proof.
  assert (H1 : class_of (final "__main__") 9 = Some Data_)
    by (vm_compute; reflexivity).
  assert (H2 : attr (final "__main__") 9 "isStored" = Some (VBool true))
    by (vm_compute; reflexivity).
  split; [by split |].
  exact (stored_data_encrypted_at_rest "__main__" 9 H1 H2).
Defined.

(** The stored data objects are the four the script marks so; the session
    token is not among them. *)
Lemma stored_data_names :
  omap (λ r, if bool_decide (attr built r "isStored" = Some (VBool true))
             then attr built r "name" else None)
       (seq 0 (length (heap built)))
  = [VStr "User Credentials"; VStr "User Profile Data";
     VStr "Workout and Routine Data"; VStr "Class Schedule Data"].
Proof. vm_compute. reflexivity. Qed.

(** ** Statements and the order they run in *)

Lemma events_final (n : string) (P : State → nat → Event → Prop)
    `{!∀ s i ev, Decision (P s i ev)} :
  bool_decide (Forall (λ x, P processed x.1 x.2) (imap pair (trace processed))) = true →
  bool_decide (Forall (λ x, P built x.1 x.2) (imap pair (trace built))) = true →
  ∀ i ev, trace (final n) !! i = Some ev → P (final n) i ev.
Proof.
  intros Hp Hb. destruct (final_cases n) as [[_ ->] | [_ ->]].
  - by apply (forall_events (trace processed) (P processed)).
  - by apply (forall_events (trace built) (P built)).
Qed.

Lemma forallb_events (t : list Event) (p : nat → Event → bool) :
  forallb (λ x, p x.1 x.2) (imap pair t) = true →
  ∀ i ev, t !! i = Some ev → p i ev = true.
Proof.
  intros Hb i ev Hi. rewrite forallb_forall in Hb.
  apply (Hb (i, ev)), list_elem_of_In. by apply (elem_of_lookup_imap_2 pair).
Qed.

Lemma forallb_events_final (n : string) (p : State → nat → Event → bool) :
  forallb (λ x, p processed x.1 x.2) (imap pair (trace processed)) = true →
  forallb (λ x, p built x.1 x.2) (imap pair (trace built)) = true →
  ∀ i ev, trace (final n) !! i = Some ev → p (final n) i ev = true.
Proof.
  intros Hp Hb. destruct (final_cases n) as [[_ ->] | [_ ->]].
  - by apply (forallb_events (trace processed) (p processed)).
  - by apply (forallb_events (trace built) (p built)).
Qed.

(** [constructed_from] returns the position of a construction of [r]. *)
Lemma constructed_from_Some (t : list Event) (k : nat) (r : Ref) (j : nat) (c : Class) :
  constructed_from k t r = Some (j, c) →
  k ≤ j ∧ ∃ line args, t !! (j - k) = Some (EvNew line r c args).
Proof.
  revert k. induction t as [| ev t IH]; intros k H; [discriminate |].
  assert (Hrec : constructed_from (S k) t r = Some (j, c) →
    k ≤ j ∧ ∃ line args, (ev :: t) !! (j - k) = Some (EvNew line r c args)).
  { intros H'. destruct (IH _ H') as (Hle & line & args & Hl).
    split; [lia |]. exists line, args.
    by replace (j - k) with (S (j - S k)) by lia. }
  destruct ev as [line r' c' args | |]; simpl in H; [| by apply Hrec ..].
  destruct (decide (r' = r)) as [-> | Hne]; [| by apply Hrec].
  injection H as <- <-. split; [lia |].
  exists line, args. by replace (k - k) with 0 by lia.
Qed.

Lemma constructed_at_declared (t : list Event) (i : nat) (r : Ref) (j : nat) (c : Class) :
  constructed_at t r = Some (j, c) → j < i → declared_before t i r c.
Proof.
  intros H Hj. destruct (constructed_from_Some _ _ _ _ _ H) as (_ & line & args & Hl).
  exists j, line, args. split; [done |]. by replace (j - 0) with j in Hl by lia.
Qed.

Lemma endpoint_declared_spec (t : list Event) (i : nat) (v : option Value) :
  endpoint_declared t i v = true →
  ∃ r c, v = Some (VRef r) ∧ endpoint_class c = true ∧ declared_before t i r c.
Proof.
  destruct v as [[] |]; simpl; try discriminate.
  destruct (constructed_at t r) as [[j c] |] eqn:E; [| discriminate].
  intros [Hj Hc]%andb_true_iff. apply bool_decide_eq_true_1 in Hj.
  exists r, c. eauto using constructed_at_declared.
Qed.

(** C4. Every dataflow is constructed from a source and a destination that
    are objects constructed earlier in the script as an actor, a server or a
    datastore. *)
Theorem dataflow_endpoints_declared
    (n : string) (i line : nat) (f : Ref) (args : list (string * Value)) :
  trace (final n) !! i = Some (EvNew line f Dataflow_ args) →
  ∃ src dst csrc cdst,
    kwarg args "source" = Some (VRef src) ∧
    kwarg args "sink" = Some (VRef dst) ∧
    endpoint_class csrc = true ∧ endpoint_class cdst = true ∧
    declared_before (trace (final n)) i src csrc ∧
    declared_before (trace (final n)) i dst cdst.
Proof.
  intros H.
  assert (Hok : dataflow_endpoints_ok (trace (final n)) i
                  (EvNew line f Dataflow_ args) = true).
  { revert H.
    apply (forallb_events_final n (λ s i ev, dataflow_endpoints_ok (trace s) i ev));
      vm_compute; reflexivity. }
  simpl in Hok. apply andb_true_iff in Hok as [Hs Hd].
  apply endpoint_declared_spec in Hs as (src & csrc & Hs1 & Hs2 & Hs3).
  apply endpoint_declared_spec in Hd as (dst & cdst & Hd1 & Hd2 & Hd3).
  exists src, dst, csrc, cdst. split_and!; assumption.
Qed.

Lemma dataflow_endpoints_declared_witness :
  trace (final "__main__") !! 86 =
    Some (EvNew 158 20 Dataflow_
            [("source", VRef 7); ("sink", VRef 8);
             ("name", VStr "Store / Read Credentials")]) ∧
  ∃ src dst csrc cdst,
    kwarg [("source", VRef 7); ("sink", VRef 8);
           ("name", VStr "Store / Read Credentials")] "source" = Some (VRef src) ∧
    kwarg [("source", VRef 7); ("sink", VRef 8);
           ("name", VStr "Store / Read Credentials")] "sink" = Some (VRef dst) ∧
    endpoint_class csrc = true ∧ endpoint_class cdst = true ∧
    declared_before (trace (final "__main__")) 86 src csrc ∧
    declared_before (trace (final "__main__")) 86 dst cdst.
Proof.
  assert (H : trace (final "__main__") !! 86 =
    Some (EvNew 158 20 Dataflow_
            [("source", VRef 7); ("sink", VRef 8);
             ("name", VStr "Store / Read Credentials")]))
    by (vm_compute; reflexivity).
  split; [exact H |]. exact (dataflow_endpoints_declared "__main__" 86 158 20 _ H).
Defined.

Lemma data_before_flow_spec (t : list Event) (f d : Ref) :
  data_before_flow t f d = true →
  ∃ i lf af, t !! i = Some (EvNew lf f Dataflow_ af) ∧ declared_before t i d Data_.
Proof.
  unfold data_before_flow.
  destruct (constructed_at t f) as [[i cf] |] eqn:Ef; [| discriminate].
  destruct cf; try discriminate.
  destruct (constructed_at t d) as [[j cd] |] eqn:Ed; [| discriminate].
  destruct cd; try discriminate.
  intros Hlt%bool_decide_eq_true_1.
  destruct (constructed_from_Some _ _ _ _ _ Ef) as (_ & lf & af & Hf).
  replace (i - 0) with i in Hf by lia.
  exists i, lf, af. split; [exact Hf |]. exact (constructed_at_declared _ _ _ j _ Ed Hlt).
Qed.

(** C5. Every data object in the data annotation of a dataflow is
    constructed before that dataflow is, hence before the first dataflow that
    refers to it. *)
Theorem data_declared_before_use
    (n : string) (k line : nat) (f : Ref) (v : Value) (d : Ref) :
  trace (final n) !! k = Some (EvSet line f "data" v) →
  d ∈ refs_of v →
  ∃ i lf af,
    trace (final n) !! i = Some (EvNew lf f Dataflow_ af) ∧
    declared_before (trace (final n)) i d Data_.
Proof.
  intros H Hd.
  assert (Hok : data_annotation_ok (trace (final n)) (EvSet line f "data" v) = true).
  { revert H.
    apply (forallb_events_final n (λ s _ ev, data_annotation_ok (trace s) ev));
      vm_compute; reflexivity. }
  simpl in Hok. rewrite forallb_forall in Hok.
  exact (data_before_flow_spec _ _ _ (Hok d (proj1 (list_elem_of_In _ _) Hd))).
Qed.

Lemma data_declared_before_use_witness :
  (trace (final "__main__") !! 79 =
     Some (EvSet 147 18 "data" (VList [VRef 9; VRef 10; VRef 11; VRef 12; VRef 13])) ∧
   13 ∈ refs_of (VList [VRef 9; VRef 10; VRef 11; VRef 12; VRef 13])) ∧
  ∃ i lf af,
    trace (final "__main__") !! i = Some (EvNew lf 18 Dataflow_ af) ∧
    declared_before (trace (final "__main__")) i 13 Data_.
Proof.
  assert (H : trace (final "__main__") !! 79 =
     Some (EvSet 147 18 "data" (VList [VRef 9; VRef 10; VRef 11; VRef 12; VRef 13])))
    by (vm_compute; reflexivity).
  assert (Hd : 13 ∈ refs_of (VList [VRef 9; VRef 10; VRef 11; VRef 12; VRef 13]))
    by (simpl; apply list_elem_of_In; simpl; tauto).
  split; [by split |].
  exact (data_declared_before_use "__main__" 79 147 18 _ 13 H Hd).
Defined.

(** ** Classification levels *)

Lemma Classification_members_all (c : Classification.t) : c ∈ Classification.members.
Proof. destruct c; apply list_elem_of_In; simpl; tauto. Qed.

(** The enumeration is ordered: members are listed by increasing value, and
    any two distinct members are comparable. *)
Lemma Classification_values :
  Classification.value <$> Classification.members = [0; 1; 2; 3; 4; 5]%Z.
Proof. reflexivity. Qed.

Lemma Classification_lt_total (a b : Classification.t) :
  Classification.lt a b ∨ a = b ∨ Classification.lt b a.
Proof. unfold Classification.lt. destruct a, b; simpl; auto; lia. Qed.

Lemma Classification_lt_irrefl (a : Classification.t) : ¬ Classification.lt a a.
Proof. unfold Classification.lt. lia. Qed.

Lemma Classification_lt_trans (a b c : Classification.t) :
  Classification.lt a b → Classification.lt b c → Classification.lt a c.
Proof. unfold Classification.lt. lia. Qed.

Lemma classification_ok_spec (ev : Event) (a : string) (v : Value) :
  classification_ok ev = true →
  (a, v) ∈ assigned ev →
  a = "classification" ∨ a = "maxClassification" →
  ∃ c, v = VClassification c ∧ c ∈ Classification.members.
Proof.
  unfold classification_ok. rewrite forallb_forall. intros H Hin Ha.
  specialize (H (a, v) (proj1 (list_elem_of_In _ _) Hin)). simpl in H.
  assert (Hattr : classification_attr a = true)
    by (destruct Ha as [-> | ->]; reflexivity).
  rewrite Hattr in H. simpl in H.
  destruct v; try discriminate. simpl in H.
  exists c. split; [reflexivity | by apply bool_decide_eq_true_1 in H].
Qed.

(** C6. Whatever the script assigns as a classification, to the
    [classification] of a data object or to the [maxClassification] of the
    datastore, in a constructor call or in an assignment, is a member of the
    library's classification enumeration. *)
Theorem classification_levels_are_members
    (n : string) (i : nat) (ev : Event) (a : string) (v : Value) :
  trace (final n) !! i = Some ev →
  (a, v) ∈ assigned ev →
  a = "classification" ∨ a = "maxClassification" →
  ∃ c, v = VClassification c ∧ c ∈ Classification.members.
Proof.
  intros H. apply classification_ok_spec. revert H.
  apply (forallb_events_final n (λ _ _ ev, classification_ok ev));
    vm_compute; reflexivity.
Qed.

Lemma classification_levels_are_members_witness :
  (trace (final "__main__") !! 35 =
     Some (EvSet 83 8 "maxClassification" (VClassification Classification.RESTRICTED)) ∧
   ("maxClassification", VClassification Classification.RESTRICTED) ∈
     assigned (EvSet 83 8 "maxClassification" (VClassification Classification.RESTRICTED))) ∧
  ∃ c, VClassification Classification.RESTRICTED = VClassification c ∧
       c ∈ Classification.members.
Proof.
  assert (H : trace (final "__main__") !! 35 =
     Some (EvSet 83 8 "maxClassification" (VClassification Classification.RESTRICTED)))
    by (vm_compute; reflexivity).
  assert (Hin : ("maxClassification", VClassification Classification.RESTRICTED) ∈
     assigned (EvSet 83 8 "maxClassification" (VClassification Classification.RESTRICTED)))
    by (simpl; apply list_elem_of_In; simpl; tauto).
  split; [split; assumption |].
  exact (classification_levels_are_members "__main__" 35 _ _ _ H Hin (or_intror eq_refl)).
Defined.

(** The levels the script uses, in source order (lines 83, 93, 100, 107,
    113 and 120). *)
Lemma classification_levels_used :
  omap (λ kv, if classification_attr kv.1 then Some kv.2 else None)
       (trace processed ≫= assigned)
  = VClassification <$>
    [Classification.RESTRICTED; Classification.SENSITIVE; Classification.RESTRICTED;
     Classification.SENSITIVE; Classification.SENSITIVE; Classification.SENSITIVE].
Proof. vm_compute. reflexivity. Qed.

(** ** The life of an entity *)

(** C1, as stated, fails: the assignment of line 199 targets
    [session_token], which was constructed at line 117, fifty-six statements
    earlier; the statement just before it (line 196) assigns to a dataflow. *)
Lemma late_assignment_to_session_token :
  globals (final "__main__") !! "session_token" = Some 13 ∧
  trace (final "__main__") !! 62 =
    Some (EvNew 117 13 Data_
            [("name", VStr "Session / Auth Token");
             ("description",
              VStr "Session cookie or JWT used to maintain authenticated sessions.");
             ("classification", VClassification Classification.SENSITIVE)]) ∧
  trace (final "__main__") !! 117 = Some (EvSet 196 27 "data" (VRef 12)) ∧
  trace (final "__main__") !! 118 =
    Some (EvSet 199 13 "traverses" (VList [VRef 18; VRef 19])) ∧
  follows_construction (trace (final "__main__")) 118 = false.
Proof. split_and!; vm_compute; reflexivity. Qed.

(** What [constructions] and [constructed_before] say about the trace. *)
Lemma constructions_unique (t : list Event) (r : Ref) (i : nat) :
  constructions t r = [i] →
  ∀ j ev, t !! j = Some ev → constructs r ev = true → j = i.
Proof.
  intros H j ev Hj Hc.
  assert (Hin : j ∈ constructions t r).
  { unfold constructions. apply list_elem_of_fmap. exists (j, ev). split; [done |].
    apply list_elem_of_filter. split; [simpl; by rewrite Hc |].
    by apply (elem_of_lookup_imap_2 pair). }
  rewrite H in Hin. by apply list_elem_of_singleton in Hin.
Qed.

Lemma constructed_before_declared (t : list Event) (i : nat) (r : Ref) :
  constructed_before t i r → ∃ c, declared_before t i r c.
Proof.
  unfold constructed_before.
  destruct (constructed_at t r) as [[j c] |] eqn:E; [| done].
  intros Hj. exists c. by apply (constructed_at_declared _ _ _ j).
Qed.

Lemma dataflow_constructions_spec (t : list Event) (j line : nat) (r : Ref)
    (args : list (string * Value)) :
  t !! j = Some (EvNew line r Dataflow_ args) → j ∈ dataflow_constructions t.
Proof.
  intros Hj. unfold dataflow_constructions. apply list_elem_of_fmap.
  exists (j, EvNew line r Dataflow_ args). split; [done |].
  apply list_elem_of_filter. split; [done |].
  by apply (elem_of_lookup_imap_2 pair).
Qed.

(** The declarations construct fourteen dataflows, the last one at line 193,
    position 114 of the trace. *)
Lemma dataflow_constructions_built :
  length (dataflow_constructions (trace built)) = 14 ∧
  last (dataflow_constructions (trace built)) = Some 114.
Proof. split; vm_compute; reflexivity. Qed.

(** C1, amended. Every entity is constructed by exactly one statement and is
    still registered, with its class, when the run ends; every attribute
    assignment targets an entity constructed earlier and immediately follows
    that construction, except the two assignments to [session_token]
    ([traverses], line 199, and [processedBy], line 203), which come after
    the dataflows; the call into the library is the last statement, so the
    script assigns nothing after it. *)
Theorem entity_lifecycle (n : string) (i : nat) (ev : Event) :
  trace (final n) !! i = Some ev → lifecycle_at (final n) i ev.
Proof.
  apply (events_final n lifecycle_at); vm_compute; reflexivity.
Qed.

Lemma entity_lifecycle_witness :
  trace (final "__main__") !! 118 =
    Some (EvSet 199 13 "traverses" (VList [VRef 18; VRef 19])) ∧
  lifecycle_at (final "__main__") 118
    (EvSet 199 13 "traverses" (VList [VRef 18; VRef 19])).
Proof.
  assert (H : trace (final "__main__") !! 118 =
    Some (EvSet 199 13 "traverses" (VList [VRef 18; VRef 19])))
    by (vm_compute; reflexivity).
  split; [exact H |]. exact (entity_lifecycle "__main__" 118 _ H).
Defined.

(** The assignments that do not immediately follow the construction of their
    target are those of lines 199 and 203, and no others. *)
Lemma late_assignments :
  filter (λ x, is_set x.2 && negb (follows_construction (trace processed) x.1))
         (imap pair (trace processed))
  = [(118, EvSet 199 13 "traverses" (VList [VRef 18; VRef 19]));
     (119, EvSet 203 13 "processedBy" (VList [VRef 7]))].
Proof. vm_compute. reflexivity. Qed.

(** ** Runs *)

Lemma built_classes : cls <$> heap built = declared_classes.
Proof. vm_compute. reflexivity. Qed.

Lemma built_silent : Forall (λ ev, observable ev = false) (trace built).
Proof.
  apply (bool_decide_eq_true_1 (Forall (λ ev, observable ev = false) (trace built))).
  vm_compute. reflexivity.
Qed.

(** C8. In any run, a statement that can have an effect outside the
    interpreter is the call [tm.process()] of line 206, in a run as the main
    program; it is the last statement, and every statement before it is a
    construction or an attribute assignment. *)
Theorem no_effect_before_process (n : string) (i : nat) (ev : Event) :
  trace (final n) !! i = Some ev →
  observable ev = true →
  n = "__main__" ∧
  globals (final n) !! "tm" = Some (target ev) ∧
  ev = EvCall 206 (target ev) "process" ∧
  S i = length (trace (final n)) ∧
  Forall (λ e, observable e = false) (take i (trace (final n))).
Proof.
  intros H Ho. split.
  - destruct (final_cases n) as [[Hn _] | [_ Hf]]; [exact Hn |].
    rewrite Hf in H. apply list_elem_of_lookup_2 in H.
    pose proof (proj1 (Forall_forall _ _) built_silent ev H) as Hs.
    simpl in Hs. rewrite Hs in Ho. discriminate Ho.
  - revert Ho. change (only_process_at (final n) i ev). revert H.
    apply (events_final n only_process_at); vm_compute; reflexivity.
Qed.

Lemma no_effect_before_process_witness :
  (trace (final "__main__") !! 120 = Some (EvCall 206 0 "process") ∧
   observable (EvCall 206 0 "process") = true) ∧
  "__main__" = "__main__" ∧
  globals (final "__main__") !! "tm" = Some 0 ∧
  EvCall 206 0 "process" = EvCall 206 0 "process" ∧
  121 = length (trace (final "__main__")) ∧
  Forall (λ e, observable e = false) (take 120 (trace (final "__main__"))).
Proof.
  assert (H : trace (final "__main__") !! 120 = Some (EvCall 206 0 "process"))
    by (vm_compute; reflexivity).
  split; [split; [exact H | reflexivity] |].
  exact (no_effect_before_process "__main__" 120 _ H eq_refl).
Defined.

(** C9. Run as the main program, the script constructs the graph and then
    calls [tm.process()] once, as its last statement; run under any other
    module name, it constructs the same graph and calls nothing. *)
Theorem process_guarded_by_main (n : string) :
  run n = Ok tt (final n) ∧
  graph (final n) = graph built ∧
  cls <$> heap (final n) = declared_classes ∧
  Forall (λ ev, observable ev = false) (trace built) ∧
  (n = "__main__" →
     globals (final n) !! "tm" = Some 0 ∧
     trace (final n) = (trace built ++ [EvCall 206 0 "process"])%list) ∧
  (n ≠ "__main__" → trace (final n) = trace built).
Proof.
  split_and!.
  - apply run_ok.
  - apply graph_final.
  - rewrite heap_final. apply built_classes.
  - apply built_silent.
  - intros Hn. rewrite globals_final. split; [apply built_tm |].
    destruct (final_cases n) as [[_ ->] | [Hne _]]; [apply trace_processed |].
    exfalso. exact (Hne Hn).
  - intros Hn. destruct (final_cases n) as [[Heq _] | [_ ->]]; [| reflexivity].
    exfalso. exact (Hn Heq).
Qed.

Lemma process_guarded_by_main_witness :
  trace (final "tm") = trace built ∧
  trace (final "__main__") = (trace built ++ [EvCall 206 0 "process"])%list.
Proof.
  split.
  - apply (proj2 (proj2 (proj2 (proj2 (proj2 (process_guarded_by_main "tm")))))).
    discriminate.
  - apply (proj1 (proj2 (proj2 (proj2 (proj2 (process_guarded_by_main "__main__")))))).
    reflexivity.
Defined.

(** * Further properties of the declared model *)

Lemma refs_final (n : string) (P : State → Ref → Prop) `{!∀ s r, Decision (P s r)} :
  bool_decide (Forall (P processed) (seq 0 (length (heap processed)))) = true →
  bool_decide (Forall (P built) (seq 0 (length (heap built)))) = true →
  ∀ r, is_Some (heap (final n) !! r) → P (final n) r.
Proof.
  intros Hp Hb. destruct (final_cases n) as [[_ ->] | [_ ->]].
  - exact (forall_refs processed (P processed) Hp).
  - exact (forall_refs built (P built) Hb).
Qed.

Lemma refs2_final (n : string) (P : State → Ref → Ref → Prop)
    `{!∀ s r r', Decision (P s r r')} :
  bool_decide (Forall (λ r, Forall (P processed r) (seq 0 (length (heap processed))))
                      (seq 0 (length (heap processed)))) = true →
  bool_decide (Forall (λ r, Forall (P built r) (seq 0 (length (heap built))))
                      (seq 0 (length (heap built)))) = true →
  ∀ r r', is_Some (heap (final n) !! r) → is_Some (heap (final n) !! r') →
          P (final n) r r'.
Proof.
  intros Hp Hb. destruct (final_cases n) as [[_ ->] | [_ ->]].
  - exact (forall_refs2 processed (P processed) Hp).
  - exact (forall_refs2 built (P built) Hb).
Qed.

(** ** Protocols and ports *)

(** X1. A dataflow that does not touch the datastore is declared as HTTPS
    on port 443; one that does is declared as TLS on port 27017. *)
Theorem protocol_port_pairs (n : string) (f : Ref) :
  class_of (final n) f = Some Dataflow_ →
  touches_datastore (final n) f = false ∧
    attr (final n) f "protocol" = Some (VStr "HTTPS") ∧
    attr (final n) f "dstPort" = Some (VInt 443)
  ∨
  touches_datastore (final n) f = true ∧
    attr (final n) f "protocol" = Some (VStr "TLS") ∧
    attr (final n) f "dstPort" = Some (VInt 27017).
Proof.
  intros Hf. pose proof (class_of_is_Some _ _ _ Hf) as Rf. revert f Rf Hf.
  apply (refs_final n (λ s f, class_of s f = Some Dataflow_ →
    touches_datastore s f = false ∧
      attr s f "protocol" = Some (VStr "HTTPS") ∧
      attr s f "dstPort" = Some (VInt 443)
    ∨
    touches_datastore s f = true ∧
      attr s f "protocol" = Some (VStr "TLS") ∧
      attr s f "dstPort" = Some (VInt 27017)));
    vm_compute; reflexivity.
Qed.

Lemma protocol_port_pairs_witness :
  class_of (final "__main__") 18 = Some Dataflow_ ∧
  (touches_datastore (final "__main__") 18 = false ∧
     attr (final "__main__") 18 "protocol" = Some (VStr "HTTPS") ∧
     attr (final "__main__") 18 "dstPort" = Some (VInt 443)
   ∨
   touches_datastore (final "__main__") 18 = true ∧
     attr (final "__main__") 18 "protocol" = Some (VStr "TLS") ∧
     attr (final "__main__") 18 "dstPort" = Some (VInt 27017)).
Proof.
  assert (H : class_of (final "__main__") 18 = Some Dataflow_)
    by (vm_compute; reflexivity).
  split; [exact H |]. exact (protocol_port_pairs "__main__" 18 H).
Defined.

(** X2. Every dataflow has a return flow: another dataflow between the same
    two entities in the opposite direction, with the same protocol and
    destination port. *)
Theorem dataflow_has_reverse (n : string) (f : Ref) :
  class_of (final n) f = Some Dataflow_ →
  ∃ g, g ≠ f ∧
       class_of (final n) g = Some Dataflow_ ∧
       attr (final n) g "source" = attr (final n) f "sink" ∧
       attr (final n) g "sink" = attr (final n) f "source" ∧
       attr (final n) g "protocol" = attr (final n) f "protocol" ∧
       attr (final n) g "dstPort" = attr (final n) f "dstPort".
Proof.
  intros Hf. pose proof (class_of_is_Some _ _ _ Hf) as Rf.
  assert (He : Exists (λ g, g ≠ f ∧
       class_of (final n) g = Some Dataflow_ ∧
       attr (final n) g "source" = attr (final n) f "sink" ∧
       attr (final n) g "sink" = attr (final n) f "source" ∧
       attr (final n) g "protocol" = attr (final n) f "protocol" ∧
       attr (final n) g "dstPort" = attr (final n) f "dstPort")
     (seq 0 (length (heap (final n))))).
  { revert f Rf Hf.
    apply (refs_final n (λ s f, class_of s f = Some Dataflow_ →
      Exists (λ g, g ≠ f ∧
        class_of s g = Some Dataflow_ ∧
        attr s g "source" = attr s f "sink" ∧
        attr s g "sink" = attr s f "source" ∧
        attr s g "protocol" = attr s f "protocol" ∧
        attr s g "dstPort" = attr s f "dstPort")
      (seq 0 (length (heap s)))));
      vm_compute; reflexivity. }
  apply Exists_exists in He as (g & _ & Hg). exists g. exact Hg.
Qed.

Lemma dataflow_has_reverse_witness :
  class_of (final "__main__") 20 = Some Dataflow_ ∧
  ∃ g, g ≠ 20 ∧
       class_of (final "__main__") g = Some Dataflow_ ∧
       attr (final "__main__") g "source" = attr (final "__main__") 20 "sink" ∧
       attr (final "__main__") g "sink" = attr (final "__main__") 20 "source" ∧
       attr (final "__main__") g "protocol" = attr (final "__main__") 20 "protocol" ∧
       attr (final "__main__") g "dstPort" = attr (final "__main__") 20 "dstPort".
Proof.
  assert (H : class_of (final "__main__") 20 = Some Dataflow_)
    by (vm_compute; reflexivity).
  split; [exact H |]. exact (dataflow_has_reverse "__main__" 20 H).
Defined.

(** ** Attributes and names *)

Lemma assignment_positions_unique (t : list Event) (r : Ref) (a : string) (i : nat) :
  assignment_positions t r a = [i] →
  ∀ j ev v, t !! j = Some ev → target ev = r → (a, v) ∈ assigned ev → j = i.
Proof.
  intros H j ev v Hj Hr Hin.
  assert (Hpos : j ∈ assignment_positions t r a).
  { unfold assignment_positions. apply list_elem_of_fmap. exists (j, ev).
    split; [done |]. apply list_elem_of_filter. split.
    - simpl. unfold assigns. rewrite bool_decide_eq_true_2 by done. simpl.
      apply bool_decide_pack, list_elem_of_fmap. by exists (a, v).
    - by apply (elem_of_lookup_imap_2 pair). }
  rewrite H in Hpos. by apply list_elem_of_singleton in Hpos.
Qed.

(** X3. No attribute is given a value twice: whatever a statement assigns,
    in a constructor call or in an assignment, no other statement assigns
    the same attribute of the same object. *)
Theorem attributes_assigned_once
    (n : string) (i : nat) (ev : Event) (a : string) (v : Value) :
  trace (final n) !! i = Some ev →
  (a, v) ∈ assigned ev →
  ∀ j ev' v', trace (final n) !! j = Some ev' → target ev' = target ev →
              (a, v') ∈ assigned ev' → j = i.
Proof.
  intros H Hin.
  assert (Hok : assigned_once (trace (final n)) i ev = true).
  { revert H.
    apply (forallb_events_final n (λ s i ev, assigned_once (trace s) i ev));
      vm_compute; reflexivity. }
  unfold assigned_once in Hok. rewrite forallb_forall in Hok.
  specialize (Hok (a, v) (proj1 (list_elem_of_In _ _) Hin)).
  apply bool_decide_eq_true_1 in Hok.
  exact (assignment_positions_unique _ _ _ _ Hok).
Qed.

Lemma attributes_assigned_once_witness :
  (trace (final "__main__") !! 62 =
     Some (EvNew 117 13 Data_
             [("name", VStr "Session / Auth Token");
              ("description",
               VStr "Session cookie or JWT used to maintain authenticated sessions.");
              ("classification", VClassification Classification.SENSITIVE)]) ∧
   ("classification", VClassification Classification.SENSITIVE) ∈
     assigned (EvNew 117 13 Data_
             [("name", VStr "Session / Auth Token");
              ("description",
               VStr "Session cookie or JWT used to maintain authenticated sessions.");
              ("classification", VClassification Classification.SENSITIVE)])) ∧
  ∀ j ev' v', trace (final "__main__") !! j = Some ev' → target ev' = 13 →
              ("classification", v') ∈ assigned ev' → j = 62.
Proof.
  assert (H : trace (final "__main__") !! 62 =
     Some (EvNew 117 13 Data_
             [("name", VStr "Session / Auth Token");
              ("description",
               VStr "Session cookie or JWT used to maintain authenticated sessions.");
              ("classification", VClassification Classification.SENSITIVE)]))
    by (vm_compute; reflexivity).
  assert (Hin : ("classification", VClassification Classification.SENSITIVE) ∈
     assigned (EvNew 117 13 Data_
             [("name", VStr "Session / Auth Token");
              ("description",
               VStr "Session cookie or JWT used to maintain authenticated sessions.");
              ("classification", VClassification Classification.SENSITIVE)]))
    by (simpl; apply list_elem_of_In; simpl; tauto).
  split; [split; assumption |].
  exact (attributes_assigned_once "__main__" 62 _ _ _ H Hin).
Defined.

Lemma NoDup_snd_inj {A B} (l : list (A * B)) :
  NoDup l.*2 → ∀ x y r, (x, r) ∈ l → (y, r) ∈ l → x = y.
Proof.
  induction l as [| [k b] l IH]; intros Hnd x y r Hx Hy.
  - by apply not_elem_of_nil in Hx.
  - simpl in Hnd. apply NoDup_cons in Hnd as [Hb Hl].
    apply elem_of_cons in Hx as [Hx | Hx]; apply elem_of_cons in Hy as [Hy | Hy].
    + congruence.
    + injection Hx as -> ->. destruct Hb.
      apply list_elem_of_fmap. by exists (y, b).
    + injection Hy as -> ->. destruct Hb.
      apply list_elem_of_fmap. by exists (x, b).
    + by apply (IH Hl x y r).
Qed.

(** X4. Names and objects correspond one to one: no two global names refer
    to the same object, every constructed object is bound to a name, and
    every name refers to a constructed object.  In particular no name is
    bound a second time, which would leave an object without a name. *)
Theorem names_and_objects (n : string) :
  (∀ x y r, globals (final n) !! x = Some r → globals (final n) !! y = Some r → x = y) ∧
  (∀ r, is_Some (heap (final n) !! r) → ∃ x, globals (final n) !! x = Some r) ∧
  (∀ x r, globals (final n) !! x = Some r → is_Some (heap (final n) !! r)).
Proof.
  rewrite globals_final, heap_final. split_and!.
  - intros x y r Hx Hy.
    apply elem_of_map_to_list in Hx. apply elem_of_map_to_list in Hy.
    revert Hx Hy. apply NoDup_snd_inj.
    apply (bool_decide_eq_true_1 (NoDup (map_to_list (globals built)).*2)).
    vm_compute. reflexivity.
  - intros r Hr.
    assert (Hin : r ∈ (map_to_list (globals built)).*2).
    { revert r Hr.
      apply (forall_refs built (λ r, r ∈ (map_to_list (globals built)).*2)).
      vm_compute. reflexivity. }
    apply list_elem_of_fmap in Hin as ([x r'] & -> & Hin).
    exists x. by apply elem_of_map_to_list.
  - intros x r Hx. apply elem_of_map_to_list in Hx.
    apply lookup_lt_is_Some.
    assert (Hall : Forall (λ r, r < length (heap built)) (map_to_list (globals built)).*2).
    { apply (bool_decide_eq_true_1
               (Forall (λ r, r < length (heap built)) (map_to_list (globals built)).*2)).
      vm_compute. reflexivity. }
    rewrite Forall_forall in Hall. apply Hall.
    apply list_elem_of_fmap. by exists (x, r).
Qed.

Lemma names_and_objects_witness :
  globals (final "__main__") !! "app_db" = Some 8 ∧
  is_Some (heap (final "__main__") !! 8).
Proof.
  assert (H : globals (final "__main__") !! "app_db" = Some 8)
    by (vm_compute; reflexivity).
  split; [exact H |].
  exact (proj2 (proj2 (names_and_objects "__main__")) "app_db" 8 H).
Defined.

(** X5. Distinct objects have distinct names: the [name] given at
    construction identifies the entity. *)
Theorem entity_names_unique (n : string) (r r' : Ref) :
  is_Some (heap (final n) !! r) → is_Some (heap (final n) !! r') →
  attr (final n) r "name" = attr (final n) r' "name" →
  r = r'.
Proof.
  intros Hr Hr'. revert r r' Hr Hr'.
  apply (refs2_final n (λ s r r', attr s r "name" = attr s r' "name" → r = r'));
    vm_compute; reflexivity.
Qed.

Lemma entity_names_unique_witness :
  (is_Some (heap (final "__main__") !! 4) ∧
   attr (final "__main__") 4 "name" = attr (final "__main__") 4 "name") ∧ 4 = 4.
Proof.
  assert (H : is_Some (heap (final "__main__") !! 4)).
  { apply lookup_lt_is_Some.
    apply (bool_decide_eq_true_1 (4 < length (heap (final "__main__")))).
    vm_compute. reflexivity. }
  split; [split; [exact H | reflexivity] |].
  exact (entity_names_unique "__main__" 4 4 H H eq_refl).
Defined.

(** ** References between entities *)

Lemma reference_ok_spec (t : list Event) (i : nat) (a : string) (r : Ref) :
  reference_ok t i a r = true →
  ∃ c, declared_before t i r c ∧ reference_kind a c = true.
Proof.
  unfold reference_ok.
  destruct (constructed_at t r) as [[j c] |] eqn:E; [| discriminate].
  intros [Hj Hk]%andb_true_iff. apply bool_decide_eq_true_1 in Hj.
  exists c. split; [exact (constructed_at_declared _ _ _ j _ E Hj) | exact Hk].
Qed.

(** X6. No statement refers forward, and every reference has the kind its
    attribute calls for: whatever object a constructor argument or an
    assigned value refers to was constructed by an earlier statement, as a
    boundary for [inBoundary], an actor, server or datastore for [source]
    and [sink], a data object for [data], a dataflow for [traverses], a
    server for [processedBy]; no other attribute is given a reference. *)
Theorem references_point_back
    (n : string) (i : nat) (ev : Event) (a : string) (v : Value) (r : Ref) :
  trace (final n) !! i = Some ev →
  (a, v) ∈ assigned ev →
  r ∈ refs_of v →
  ∃ c, declared_before (trace (final n)) i r c ∧ reference_kind a c = true.
Proof.
  intros H Hin Hr.
  assert (Hok : references_ok (trace (final n)) i ev = true).
  { revert H.
    apply (forallb_events_final n (λ s i ev, references_ok (trace s) i ev));
      vm_compute; reflexivity. }
  unfold references_ok in Hok. rewrite forallb_forall in Hok.
  specialize (Hok (a, v) (proj1 (list_elem_of_In _ _) Hin)). simpl in Hok.
  rewrite forallb_forall in Hok.
  exact (reference_ok_spec _ _ _ _ (Hok r (proj1 (list_elem_of_In _ _) Hr))).
Qed.

Lemma references_point_back_witness :
  (trace (final "__main__") !! 118 =
     Some (EvSet 199 13 "traverses" (VList [VRef 18; VRef 19])) ∧
   ("traverses", VList [VRef 18; VRef 19]) ∈
     assigned (EvSet 199 13 "traverses" (VList [VRef 18; VRef 19])) ∧
   19 ∈ refs_of (VList [VRef 18; VRef 19])) ∧
  ∃ c, declared_before (trace (final "__main__")) 118 19 c ∧
       reference_kind "traverses" c = true.
Proof.
  assert (H : trace (final "__main__") !! 118 =
     Some (EvSet 199 13 "traverses" (VList [VRef 18; VRef 19])))
    by (vm_compute; reflexivity).
  assert (Hin : ("traverses", VList [VRef 18; VRef 19]) ∈
     assigned (EvSet 199 13 "traverses" (VList [VRef 18; VRef 19])))
    by (simpl; apply list_elem_of_In; simpl; tauto).
  assert (Hr : 19 ∈ refs_of (VList [VRef 18; VRef 19]))
    by (simpl; apply list_elem_of_In; simpl; tauto).
  split; [split_and!; assumption |].
  exact (references_point_back "__main__" 118 _ _ _ 19 H Hin Hr).
Defined.

Lemma ref_class_Some (s : State) (v : option Value) (c : Class) :
  ref_class s v = Some c → ∃ r, v = Some (VRef r) ∧ class_of s r = Some c.
Proof. destruct v as [[] |]; simpl; try discriminate. eauto. Qed.

(** X7. Every actor, server and datastore is placed in a trust boundary:
    its [inBoundary] attribute refers to a boundary object. *)
Theorem entities_in_boundaries (n : string) (e : Ref) (c : Class) :
  class_of (final n) e = Some c →
  endpoint_class c = true →
  ∃ b, attr (final n) e "inBoundary" = Some (VRef b) ∧
       class_of (final n) b = Some Boundary_.
Proof.
  intros He Hc. apply ref_class_Some.
  pose proof (class_of_is_Some _ _ _ He) as Re.
  assert (Hp : from_option endpoint_class false (class_of (final n) e) = true)
    by (rewrite He; exact Hc).
  clear He. revert e Re Hp.
  apply (refs_final n (λ s e,
    from_option endpoint_class false (class_of s e) = true →
    ref_class s (attr s e "inBoundary") = Some Boundary_));
    vm_compute; reflexivity.
Qed.

Lemma entities_in_boundaries_witness :
  (class_of (final "__main__") 7 = Some Server_ ∧ endpoint_class Server_ = true) ∧
  ∃ b, attr (final "__main__") 7 "inBoundary" = Some (VRef b) ∧
       class_of (final "__main__") b = Some Boundary_.
Proof.
  assert (H : class_of (final "__main__") 7 = Some Server_)
    by (vm_compute; reflexivity).
  split; [split; [exact H | reflexivity] |].
  exact (entities_in_boundaries "__main__" 7 Server_ H eq_refl).
Defined.

(** X8. Every declared boundary is used: some entity is placed in it. *)
Theorem boundaries_inhabited (n : string) (b : Ref) :
  class_of (final n) b = Some Boundary_ →
  ∃ e c, class_of (final n) e = Some c ∧ endpoint_class c = true ∧
         attr (final n) e "inBoundary" = Some (VRef b).
Proof.
  intros Hb. pose proof (class_of_is_Some _ _ _ Hb) as Rb.
  assert (He : Exists (λ e,
      from_option endpoint_class false (class_of (final n) e) = true ∧
      attr (final n) e "inBoundary" = Some (VRef b))
    (seq 0 (length (heap (final n))))).
  { revert b Rb Hb.
    apply (refs_final n (λ s b, class_of s b = Some Boundary_ →
      Exists (λ e,
        from_option endpoint_class false (class_of s e) = true ∧
        attr s e "inBoundary" = Some (VRef b))
      (seq 0 (length (heap s)))));
      vm_compute; reflexivity. }
  apply Exists_exists in He as (e & _ & Hc & Hin).
  destruct (class_of (final n) e) as [c |] eqn:Ec; [| discriminate Hc].
  exists e, c. split_and!; [exact Ec | exact Hc | exact Hin].
Qed.

Lemma boundaries_inhabited_witness :
  class_of (final "__main__") 2 = Some Boundary_ ∧
  ∃ e c, class_of (final "__main__") e = Some c ∧ endpoint_class c = true ∧
         attr (final "__main__") e "inBoundary" = Some (VRef 2).
Proof.
  assert (H : class_of (final "__main__") 2 = Some Boundary_)
    by (vm_compute; reflexivity).
  split; [exact H |]. exact (boundaries_inhabited "__main__" 2 H).
Defined.

(** ** Data carried by dataflows *)

(** X9. The [traverses] attribute of a data object agrees with the [data]
    annotations of the dataflows: a dataflow is listed in it exactly when
    that dataflow carries the data object. *)
Theorem traverses_matches_data (n : string) (d f : Ref) (fs : Value) :
  class_of (final n) d = Some Data_ →
  class_of (final n) f = Some Dataflow_ →
  attr (final n) d "traverses" = Some fs →
  f ∈ refs_of fs ↔ d ∈ carried (final n) f.
Proof.
  intros Hd Hf Ht.
  pose proof (class_of_is_Some _ _ _ Hd) as Rd.
  pose proof (class_of_is_Some _ _ _ Hf) as Rf.
  assert (Hs : is_Some (attr (final n) d "traverses")) by (rewrite Ht; eauto).
  replace (refs_of fs) with (from_option refs_of [] (attr (final n) d "traverses"))
    by (rewrite Ht; reflexivity).
  clear Ht. revert Hd Hf Hs. revert d f Rd Rf.
  apply (refs2_final n (λ s d f,
    class_of s d = Some Data_ → class_of s f = Some Dataflow_ →
    is_Some (attr s d "traverses") →
    f ∈ from_option refs_of [] (attr s d "traverses") ↔ d ∈ carried s f));
    vm_compute; reflexivity.
Qed.

Lemma traverses_matches_data_witness :
  (class_of (final "__main__") 13 = Some Data_ ∧
   class_of (final "__main__") 19 = Some Dataflow_ ∧
   attr (final "__main__") 13 "traverses" = Some (VList [VRef 18; VRef 19])) ∧
  (19 ∈ refs_of (VList [VRef 18; VRef 19]) ↔ 13 ∈ carried (final "__main__") 19).
Proof.
  assert (H1 : class_of (final "__main__") 13 = Some Data_)
    by (vm_compute; reflexivity).
  assert (H2 : class_of (final "__main__") 19 = Some Dataflow_)
    by (vm_compute; reflexivity).
  assert (H3 : attr (final "__main__") 13 "traverses" = Some (VList [VRef 18; VRef 19]))
    by (vm_compute; reflexivity).
  split; [split_and!; assumption |].
  exact (traverses_matches_data "__main__" 13 19 _ H1 H2 H3).
Defined.

(** X10. Whatever is listed as processing a data object is an end of every
    dataflow the data object traverses. *)
Theorem processor_on_traversed_flows (n : string) (d p f : Ref) (ps fs : Value) :
  attr (final n) d "processedBy" = Some ps →
  attr (final n) d "traverses" = Some fs →
  p ∈ refs_of ps → f ∈ refs_of fs →
  attr (final n) f "source" = Some (VRef p) ∨ attr (final n) f "sink" = Some (VRef p).
Proof.
  intros Hp Ht Hin Hf.
  assert (Rd : is_Some (heap (final n) !! d)).
  { unfold attr in Hp. destruct (heap (final n) !! d); [eauto | discriminate Hp]. }
  assert (Hall : Forall (λ p, Forall (λ f,
      attr (final n) f "source" = Some (VRef p) ∨
      attr (final n) f "sink" = Some (VRef p))
      (from_option refs_of [] (attr (final n) d "traverses")))
    (from_option refs_of [] (attr (final n) d "processedBy"))).
  { clear Hp Ht Hin Hf. revert d Rd.
    apply (refs_final n (λ s d, Forall (λ p, Forall (λ f,
      attr s f "source" = Some (VRef p) ∨ attr s f "sink" = Some (VRef p))
      (from_option refs_of [] (attr s d "traverses")))
      (from_option refs_of [] (attr s d "processedBy"))));
      vm_compute; reflexivity. }
  rewrite Hp, Ht in Hall. simpl in Hall.
  rewrite Forall_forall in Hall. specialize (Hall p Hin).
  rewrite Forall_forall in Hall. exact (Hall f Hf).
Qed.

Lemma processor_on_traversed_flows_witness :
  (attr (final "__main__") 13 "processedBy" = Some (VList [VRef 7]) ∧
   attr (final "__main__") 13 "traverses" = Some (VList [VRef 18; VRef 19]) ∧
   7 ∈ refs_of (VList [VRef 7]) ∧ 18 ∈ refs_of (VList [VRef 18; VRef 19])) ∧
  (attr (final "__main__") 18 "source" = Some (VRef 7) ∨
   attr (final "__main__") 18 "sink" = Some (VRef 7)).
Proof.
  assert (H1 : attr (final "__main__") 13 "processedBy" = Some (VList [VRef 7]))
    by (vm_compute; reflexivity).
  assert (H2 : attr (final "__main__") 13 "traverses" = Some (VList [VRef 18; VRef 19]))
    by (vm_compute; reflexivity).
  assert (H3 : 7 ∈ refs_of (VList [VRef 7]))
    by (simpl; apply list_elem_of_In; simpl; tauto).
  assert (H4 : 18 ∈ refs_of (VList [VRef 18; VRef 19]))
    by (simpl; apply list_elem_of_In; simpl; tauto).
  split; [split_and!; assumption |].
  exact (processor_on_traversed_flows "__main__" 13 7 18 _ _ H1 H2 H3 H4).
Defined.

(** X11. A dataflow to or from the datastore carries exactly one data
    object, and that object is marked as stored; so data that is not stored
    (the session token) never reaches the datastore. *)
Theorem datastore_flows_carry_stored_data (n : string) (f : Ref) :
  class_of (final n) f = Some Dataflow_ →
  touches_datastore (final n) f = true →
  ∃ d, carried (final n) f = [d] ∧
       class_of (final n) d = Some Data_ ∧
       attr (final n) d "isStored" = Some (VBool true).
Proof.
  intros Hf Ht. pose proof (class_of_is_Some _ _ _ Hf) as Rf.
  assert (He : Exists (λ d, carried (final n) f = [d] ∧
      class_of (final n) d = Some Data_ ∧
      attr (final n) d "isStored" = Some (VBool true))
    (seq 0 (length (heap (final n))))).
  { revert f Rf Hf Ht.
    apply (refs_final n (λ s f, class_of s f = Some Dataflow_ →
      touches_datastore s f = true →
      Exists (λ d, carried s f = [d] ∧ class_of s d = Some Data_ ∧
                   attr s d "isStored" = Some (VBool true))
             (seq 0 (length (heap s)))));
      vm_compute; reflexivity. }
  apply Exists_exists in He as (d & _ & Hd). exists d. exact Hd.
Qed.

Lemma datastore_flows_carry_stored_data_witness :
  (class_of (final "__main__") 22 = Some Dataflow_ ∧
   touches_datastore (final "__main__") 22 = true) ∧
  ∃ d, carried (final "__main__") 22 = [d] ∧
       class_of (final "__main__") d = Some Data_ ∧
       attr (final "__main__") d "isStored" = Some (VBool true).
Proof.
  assert (H1 : class_of (final "__main__") 22 = Some Dataflow_)
    by (vm_compute; reflexivity).
  assert (H2 : touches_datastore (final "__main__") 22 = true)
    by (vm_compute; reflexivity).
  split; [split; assumption |].
  exact (datastore_flows_carry_stored_data "__main__" 22 H1 H2).
Defined.

(** X12. Every data object marked as stored is both written to and read
    back from the datastore: one dataflow into a datastore and one dataflow
    out of a datastore carry it, and nothing else. *)
Theorem stored_data_written_and_read (n : string) (d : Ref) :
  class_of (final n) d = Some Data_ →
  attr (final n) d "isStored" = Some (VBool true) →
  (∃ w, class_of (final n) w = Some Dataflow_ ∧
        ref_class (final n) (attr (final n) w "sink") = Some Datastore_ ∧
        carried (final n) w = [d]) ∧
  (∃ g, class_of (final n) g = Some Dataflow_ ∧
        ref_class (final n) (attr (final n) g "source") = Some Datastore_ ∧
        carried (final n) g = [d]).
Proof.
  intros Hd Hs. pose proof (class_of_is_Some _ _ _ Hd) as Rd.
  assert (He :
    Exists (λ w, class_of (final n) w = Some Dataflow_ ∧
        ref_class (final n) (attr (final n) w "sink") = Some Datastore_ ∧
        carried (final n) w = [d]) (seq 0 (length (heap (final n)))) ∧
    Exists (λ g, class_of (final n) g = Some Dataflow_ ∧
        ref_class (final n) (attr (final n) g "source") = Some Datastore_ ∧
        carried (final n) g = [d]) (seq 0 (length (heap (final n))))).
  { revert d Rd Hd Hs.
    apply (refs_final n (λ s d, class_of s d = Some Data_ →
      attr s d "isStored" = Some (VBool true) →
      Exists (λ w, class_of s w = Some Dataflow_ ∧
          ref_class s (attr s w "sink") = Some Datastore_ ∧
          carried s w = [d]) (seq 0 (length (heap s))) ∧
      Exists (λ g, class_of s g = Some Dataflow_ ∧
          ref_class s (attr s g "source") = Some Datastore_ ∧
          carried s g = [d]) (seq 0 (length (heap s)))));
      vm_compute; reflexivity. }
  destruct He as [Hw Hg].
  apply Exists_exists in Hw as (w & _ & Hw). apply Exists_exists in Hg as (g & _ & Hg).
  split; [exists w; exact Hw | exists g; exact Hg].
Qed.

Lemma stored_data_written_and_read_witness :
  (class_of (final "__main__") 11 = Some Data_ ∧
   attr (final "__main__") 11 "isStored" = Some (VBool true)) ∧
  ∃ w, class_of (final "__main__") w = Some Dataflow_ ∧
       ref_class (final "__main__") (attr (final "__main__") w "sink") = Some Datastore_ ∧
       carried (final "__main__") w = [11].
Proof.
  assert (H1 : class_of (final "__main__") 11 = Some Data_)
    by (vm_compute; reflexivity).
  assert (H2 : attr (final "__main__") 11 "isStored" = Some (VBool true))
    by (vm_compute; reflexivity).
  split; [split; assumption |].
  exact (proj1 (stored_data_written_and_read "__main__" 11 H1 H2)).
Defined.
